(** * Confluence engine of [betterpridictormodule.py]

    A shallow embedding of the rule evaluators and of the aggregator of
    [TradingAnalyzer], and the properties of the specification proved
    (or refuted) on it.

    - A pandas row ([df.iloc[-1]]) is a finite map from column names to
      binary64 floats; [row['X']] raises [KeyError] when the column is
      absent, so every evaluator lives in an error monad.
    - Column values are IEEE binary64 numbers (Rocq's primitive floats):
      comparisons with NaN are false, exactly as in numpy.
    - Scores are Python integers ([Z]); [int / int] is Python's true
      division, the correctly rounded binary64 quotient. *)

From Stdlib Require Import ZArith Floats.
From stdpp Require Import base option list strings pretty gmap.

Set Warnings "-inexact-float".
Local Open Scope Z_scope.

(** ** Exceptions and the error monad *)

Inductive exn : Type :=
  | KeyError (key : string)
  | IndexError.

Inductive result (A : Type) : Type :=
  | Ok (a : A)
  | Raise (e : exn).
Arguments Ok {A} a.
Arguments Raise {A} e.

#[global] Instance result_ret : MRet result := λ A a, Ok a.
#[global] Instance result_bind : MBind result :=
  λ A B f m, match m with Ok a => f a | Raise e => Raise e end.
#[global] Instance result_fmap : FMap result :=
  λ A B f m, match m with Ok a => Ok (f a) | Raise e => Raise e end.

(** ** Floats as numpy compares them *)

Definition flt (a b : float) : bool := PrimFloat.ltb a b.
Definition fgt (a b : float) : bool := PrimFloat.ltb b a.
Definition fle (a b : float) : bool := PrimFloat.leb a b.

(** [a and b] on an already evaluated [a]: [b] is evaluated only when
    [a] is true. *)
Definition py_and (a : bool) (b : result bool) : result bool :=
  if a then b else mret false.

(** ** Rows, signals and confluence sets *)

Abbreviation Series := (gmap string float).

(** [row['k']] *)
Definition getitem (row : Series) (k : string) : result float :=
  match row !! k with
  | Some v => Ok v
  | None => Raise (KeyError k)
  end.
Notation "row .[ k ]" := (getitem row k) (at level 1, k at level 99, format "row .[ k ]").

(** The pieces of an f-string: literal text, or a number with its
    format specification. *)
Inductive fpart : Type :=
  | Txt (s : string)
  | Num (spec : string) (v : float).

Record signal : Type := Signal {
  indicator : string;
  condition : list fpart;
  implication : string;
  strength : string;
  timeframe : string
}.

Inductive direction : Type := bullish | bearish | neutral.

Definition direction_name (d : direction) : string :=
  match d with
  | bullish => "bullish"
  | bearish => "bearish"
  | neutral => "neutral"
  end.

(** The dict [{'bullish': [...], 'bearish': [...], 'neutral': [...]}]. *)
Record confluence_set : Type := Confluences {
  cs_bullish : list signal;
  cs_bearish : list signal;
  cs_neutral : list signal
}.

Definition no_confluences : confluence_set := Confluences [] [] [].

(** [confluences[d]] *)
Definition cs_get (d : direction) (c : confluence_set) : list signal :=
  match d with
  | bullish => cs_bullish c
  | bearish => cs_bearish c
  | neutral => cs_neutral c
  end.

(** [confluences[d].append(s)] *)
Definition append (d : direction) (s : signal) (c : confluence_set) : confluence_set :=
  match d with
  | bullish => Confluences (cs_bullish c ++ [s]) (cs_bearish c) (cs_neutral c)
  | bearish => Confluences (cs_bullish c) (cs_bearish c ++ [s]) (cs_neutral c)
  | neutral => Confluences (cs_bullish c) (cs_bearish c) (cs_neutral c ++ [s])
  end.
Arguments append : simpl never.

#[global] Instance direction_eq_dec : EqDecision direction.
Proof. solve_decision. Defined.

(** ** The analyzer object *)

Record TradingAnalyzer : Type := { confluence_threshold : Z }.

(** [TradingAnalyzer.__init__] *)
Definition init : TradingAnalyzer := {| confluence_threshold := 3 |}.

(** ** Momentum *)

Definition rsi_analysis (row : Series) (confluences : confluence_set)
  : result confluence_set :=
  rsi ← row.["RSI_14"];
  if flt rsi 30 then
    v ← row.["RSI_14"];
    mret (append bullish {|
      indicator := "RSI (14)";
      condition := [Txt "Oversold at "; Num ".1f" v];
      implication := "Potential bounce or reversal setup. Watch for bullish divergence or break above 30.";
      strength := "Medium";
      timeframe := "Short-term" |} confluences)
  else
    rsi ← row.["RSI_14"];
    if fgt rsi 70 then
      v ← row.["RSI_14"];
      mret (append bearish {|
        indicator := "RSI (14)";
        condition := [Txt "Overbought at "; Num ".1f" v];
        implication := "Potential pullback or distribution. Watch for bearish divergence or break below 70.";
        strength := "Medium";
        timeframe := "Short-term" |} confluences)
    else
      rsi ← row.["RSI_14"];
      if fle 45 rsi && fle rsi 55 then
        v ← row.["RSI_14"];
        mret (append neutral {|
          indicator := "RSI (14)";
          condition := [Txt "Neutral at "; Num ".1f" v];
          implication := "Balanced momentum. Look for directional break above 55 or below 45.";
          strength := "Low";
          timeframe := "Short-term" |} confluences)
      else mret confluences.

Definition stochastic_analysis (row : Series) (confluences : confluence_set)
  : result confluence_set :=
  k ← row.["Stoch_K"];
  c ← py_and (flt k 20) (d ← row.["Stoch_D"]; mret (flt d 20));
  if c : bool then
    k1 ← row.["Stoch_K"];
    d1 ← row.["Stoch_D"];
    k2 ← row.["Stoch_K"];
    d2 ← row.["Stoch_D"];
    mret (append bullish {|
      indicator := "Stochastic";
      condition := [Txt "Both %K ("; Num ".1f" k1; Txt ") and %D ("; Num ".1f" d1; Txt ") oversold"];
      implication := "Strong oversold condition. Potential reversal when %K crosses above %D.";
      strength := if fgt k2 d2 then "Strong" else "Medium";
      timeframe := "Short-term" |} confluences)
  else
    k ← row.["Stoch_K"];
    c ← py_and (fgt k 80) (d ← row.["Stoch_D"]; mret (fgt d 80));
    if c : bool then
      k1 ← row.["Stoch_K"];
      d1 ← row.["Stoch_D"];
      k2 ← row.["Stoch_K"];
      d2 ← row.["Stoch_D"];
      mret (append bearish {|
        indicator := "Stochastic";
        condition := [Txt "Both %K ("; Num ".1f" k1; Txt ") and %D ("; Num ".1f" d1; Txt ") overbought"];
        implication := "Strong overbought condition. Potential reversal when %K crosses below %D.";
        strength := if flt k2 d2 then "Strong" else "Medium";
        timeframe := "Short-term" |} confluences)
    else mret confluences.

Definition williams_r_analysis (row : Series) (confluences : confluence_set)
  : result confluence_set :=
  w ← row.["Williams_R"];
  if flt w (-80) then
    v ← row.["Williams_R"];
    mret (append bullish {|
      indicator := "Williams %R";
      condition := [Txt "Oversold at "; Num ".1f" v];
      implication := "Potential buying opportunity. Watch for move above -80 for confirmation.";
      strength := "Medium";
      timeframe := "Short-term" |} confluences)
  else
    w ← row.["Williams_R"];
    if fgt w (-20) then
      v ← row.["Williams_R"];
      mret (append bearish {|
        indicator := "Williams %R";
        condition := [Txt "Overbought at "; Num ".1f" v];
        implication := "Potential selling pressure. Watch for move below -20 for confirmation.";
        strength := "Medium";
        timeframe := "Short-term" |} confluences)
    else mret confluences.

Definition analyze_momentum_confluence (self : TradingAnalyzer) (row : Series)
  : result confluence_set :=
  let confluences := no_confluences in
  confluences ← rsi_analysis row confluences;
  confluences ← stochastic_analysis row confluences;
  confluences ← williams_r_analysis row confluences;
  mret confluences.

(** ** Trend *)

Definition ema_alignment_analysis (row : Series) (confluences : confluence_set)
  : result confluence_set :=
  ema_alignment ← (
    e9 ← row.["EMA_9"];
    e21 ← row.["EMA_21"];
    c ← py_and (fgt e9 e21) (e50 ← row.["EMA_50"]; mret (fgt e21 e50));
    if c : bool then mret "bullish"
    else
      e9 ← row.["EMA_9"];
      e21 ← row.["EMA_21"];
      c ← py_and (flt e9 e21) (e50 ← row.["EMA_50"]; mret (flt e21 e50));
      if c : bool then mret "bearish" else mret "mixed");
  if String.eqb ema_alignment "bullish" then
    mret (append bullish {|
      indicator := "EMA Alignment";
      condition := [Txt "EMA 9 > EMA 21 > EMA 50"];
      implication := "Strong bullish trend structure. Expect continuation with pullbacks to EMAs as support.";
      strength := "Strong";
      timeframe := "Medium-term" |} confluences)
  else if String.eqb ema_alignment "bearish" then
    mret (append bearish {|
      indicator := "EMA Alignment";
      condition := [Txt "EMA 9 < EMA 21 < EMA 50"];
      implication := "Strong bearish trend structure. Expect continuation with rallies to EMAs as resistance.";
      strength := "Strong";
      timeframe := "Medium-term" |} confluences)
  else mret confluences.

Definition price_vs_emas (row : Series) (confluences : confluence_set)
  : result confluence_set :=
  close ← row.["Close"];
  e21 ← row.["EMA_21"];
  if fgt close e21 then
    c ← row.["Close"];
    e ← row.["EMA_21"];
    mret (append bullish {|
      indicator := "Price vs EMA 21";
      condition := [Txt "Price "; Num "+.2f" ((c / e - 1) * 100)%float; Txt "% above EMA 21"];
      implication := "Bullish bias maintained. EMA 21 likely to act as dynamic support.";
      strength := "Medium";
      timeframe := "Short to Medium-term" |} confluences)
  else
    c ← row.["Close"];
    e ← row.["EMA_21"];
    mret (append bearish {|
      indicator := "Price vs EMA 21";
      condition := [Txt "Price "; Num "+.2f" ((c / e - 1) * 100)%float; Txt "% below EMA 21"];
      implication := "Bearish bias maintained. EMA 21 likely to act as dynamic resistance.";
      strength := "Medium";
      timeframe := "Short to Medium-term" |} confluences).

Definition macd_analysis (row : Series) (confluences : confluence_set)
  : result confluence_set :=
  m ← row.["MACD"];
  s ← row.["MACD_Signal"];
  c ← py_and (fgt m s) (h ← row.["MACD_Histogram"]; mret (fgt h 0));
  if c : bool then
    h ← row.["MACD_Histogram"];
    mret (append bullish {|
      indicator := "MACD";
      condition := [Txt "MACD above signal line with positive histogram"];
      implication := "Bullish momentum building. Watch for histogram expansion for stronger moves.";
      strength := if fgt h 0 then "Strong" else "Medium";
      timeframe := "Medium-term" |} confluences)
  else
    m ← row.["MACD"];
    s ← row.["MACD_Signal"];
    c ← py_and (flt m s) (h ← row.["MACD_Histogram"]; mret (flt h 0));
    if c : bool then
      h ← row.["MACD_Histogram"];
      mret (append bearish {|
        indicator := "MACD";
        condition := [Txt "MACD below signal line with negative histogram"];
        implication := "Bearish momentum building. Watch for histogram expansion for stronger moves.";
        strength := if flt h 0 then "Strong" else "Medium";
        timeframe := "Medium-term" |} confluences)
    else mret confluences.

Definition adx_trend_strength (row : Series) (confluences : confluence_set)
  : result confluence_set :=
  adx ← row.["ADX"];
  if fgt adx 25 then
    di_plus ← row.["DI_Plus"];
    di_minus ← row.["DI_Minus"];
    let trend_direction := if fgt di_plus di_minus then bullish else bearish in
    a1 ← row.["ADX"];
    a2 ← row.["ADX"];
    mret (append trend_direction {|
      indicator := "ADX Trend Strength";
      condition := [Txt "Strong trending market (ADX: "; Num ".1f" a1; Txt ")"];
      implication := "Strong " +:+ direction_name trend_direction
                     +:+ " trend in place. Expect trend continuation with minor pullbacks.";
      strength := if fgt a2 40 then "Strong" else "Medium";
      timeframe := "Medium to Long-term" |} confluences)
  else
    adx ← row.["ADX"];
    if flt adx 20 then
      a1 ← row.["ADX"];
      mret (append neutral {|
        indicator := "ADX Trend Strength";
        condition := [Txt "Weak trending market (ADX: "; Num ".1f" a1; Txt ")"];
        implication := "Market in consolidation/ranging phase. Look for breakout setups.";
        strength := "Medium";
        timeframe := "All timeframes" |} confluences)
    else mret confluences.

Definition analyze_trend_confluence (self : TradingAnalyzer) (row : Series)
  : result confluence_set :=
  let confluences := no_confluences in
  confluences ← ema_alignment_analysis row confluences;
  confluences ← price_vs_emas row confluences;
  confluences ← macd_analysis row confluences;
  confluences ← adx_trend_strength row confluences;
  mret confluences.

(** ** Volatility *)

Definition bollinger_bands_analysis (row : Series) (confluences : confluence_set)
  : result confluence_set :=
  bb_pos ← row.["BB_Position"];
  if flt bb_pos 0.1 then
    mret (append bullish {|
      indicator := "Bollinger Bands";
      condition := [Txt "Price near lower band (Position: "; Num ".2f" bb_pos; Txt ")"];
      implication := "Potential mean reversion setup. Watch for bounce off lower band or breakdown.";
      strength := "Medium";
      timeframe := "Short-term" |} confluences)
  else if fgt bb_pos 0.9 then
    mret (append bearish {|
      indicator := "Bollinger Bands";
      condition := [Txt "Price near upper band (Position: "; Num ".2f" bb_pos; Txt ")"];
      implication := "Potential mean reversion setup. Watch for rejection at upper band or breakout.";
      strength := "Medium";
      timeframe := "Short-term" |} confluences)
  else mret confluences.

Definition bollinger_band_width (row : Series) (confluences : confluence_set)
  : result confluence_set :=
  w ← row.["BB_Width"];
  if flt w 2 then
    v ← row.["BB_Width"];
    mret (append neutral {|
      indicator := "Bollinger Band Width";
      condition := [Txt "Low volatility environment (Width: "; Num ".2f" v; Txt "%)"];
      implication := "Squeeze condition. Expect volatility expansion and potential breakout soon.";
      strength := "Strong";
      timeframe := "Short to Medium-term" |} confluences)
  else
    w ← row.["BB_Width"];
    if fgt w 8 then
      v ← row.["BB_Width"];
      mret (append neutral {|
        indicator := "Bollinger Band Width";
        condition := [Txt "High volatility environment (Width: "; Num ".2f" v; Txt "%)"];
        implication := "Volatility expansion phase. Expect potential reversion to mean.";
        strength := "Medium";
        timeframe := "Short-term" |} confluences)
    else mret confluences.

Definition atr_analysis (row : Series) (confluences : confluence_set)
  : result confluence_set :=
  a ← row.["ATR_Percent"];
  if fgt a 3 then
    v ← row.["ATR_Percent"];
    mret (append neutral {|
      indicator := "Average True Range";
      condition := [Txt "High volatility (ATR: "; Num ".2f" v; Txt "%)"];
      implication := "Elevated volatility. Use wider stops and smaller position sizes.";
      strength := "Medium";
      timeframe := "All timeframes" |} confluences)
  else mret confluences.

Definition analyze_volatility_confluence (self : TradingAnalyzer) (row : Series)
  : result confluence_set :=
  let confluences := no_confluences in
  confluences ← bollinger_bands_analysis row confluences;
  confluences ← bollinger_band_width row confluences;
  confluences ← atr_analysis row confluences;
  mret confluences.

(** ** Volume *)

Definition volume_analysis (row : Series) (confluences : confluence_set)
  : result confluence_set :=
  r ← row.["Volume_Ratio"];
  if fgt r 1.5 then
    r1 ← row.["Volume_Ratio"];
    r2 ← row.["Volume_Ratio"];
    mret (append neutral {|
      indicator := "Volume";
      condition := [Txt "Above average volume ("; Num ".1f" r1; Txt "x normal)"];
      implication := "Strong participation. Moves likely to be more sustainable.";
      strength := if fgt r2 2 then "Strong" else "Medium";
      timeframe := "Short-term" |} confluences)
  else
    r ← row.["Volume_Ratio"];
    if flt r 0.7 then
      r1 ← row.["Volume_Ratio"];
      mret (append neutral {|
        indicator := "Volume";
        condition := [Txt "Below average volume ("; Num ".1f" r1; Txt "x normal)"];
        implication := "Low participation. Moves may lack conviction and sustainability.";
        strength := "Medium";
        timeframe := "Short-term" |} confluences)
    else mret confluences.

Definition chaikin_money_flow (row : Series) (confluences : confluence_set)
  : result confluence_set :=
  cmf ← row.["CMF"];
  if fgt cmf 0.2 then
    c1 ← row.["CMF"];
    c2 ← row.["CMF"];
    mret (append bullish {|
      indicator := "Chaikin Money Flow";
      condition := [Txt "Strong buying pressure (CMF: "; Num ".2f" c1; Txt ")"];
      implication := "Money flowing into the asset. Supports bullish bias.";
      strength := if fgt c2 0.3 then "Strong" else "Medium";
      timeframe := "Medium-term" |} confluences)
  else
    cmf ← row.["CMF"];
    if flt cmf (-0.2) then
      c1 ← row.["CMF"];
      c2 ← row.["CMF"];
      mret (append bearish {|
        indicator := "Chaikin Money Flow";
        condition := [Txt "Strong selling pressure (CMF: "; Num ".2f" c1; Txt ")"];
        implication := "Money flowing out of the asset. Supports bearish bias.";
        strength := if flt c2 (-0.3) then "Strong" else "Medium";
        timeframe := "Medium-term" |} confluences)
    else mret confluences.

Definition analyze_volume_confluence (self : TradingAnalyzer) (row : Series)
  : result confluence_set :=
  let confluences := no_confluences in
  confluences ← volume_analysis row confluences;
  confluences ← chaikin_money_flow row confluences;
  mret confluences.

(** ** Price action *)

Definition candle_analysis (row : Series) (confluences : confluence_set)
  : result confluence_set :=
  b ← row.["Body_Size"];
  if fgt b 2 then
    close ← row.["Close"];
    open ← row.["Open"];
    let candle_type := if fgt close open then bullish else bearish in
    b1 ← row.["Body_Size"];
    b2 ← row.["Body_Size"];
    mret (append candle_type {|
      indicator := "Price Action";
      condition := [Txt ("Large " +:+ direction_name candle_type +:+ " candle (Body: ");
                    Num ".2f" b1; Txt "%)"];
      implication := "Strong " +:+ direction_name candle_type
                     +:+ " conviction. Expect follow-through in next few candles.";
      strength := if fgt b2 3 then "Strong" else "Medium";
      timeframe := "Short-term" |} confluences)
  else mret confluences.

Definition upper_wick_analysis (row : Series) (confluences : confluence_set)
  : result confluence_set :=
  uw ← row.["Upper_Wick"];
  b ← row.["Body_Size"];
  c ← py_and (fgt uw (b * 2)%float)
             (close ← row.["Close"]; open ← row.["Open"]; mret (fgt close open));
  if c : bool then
    v ← row.["Upper_Wick"];
    mret (append bearish {|
      indicator := "Price Action - Wicks";
      condition := [Txt "Long upper wick on bullish candle (Wick: "; Num ".2f" v; Txt "%)"];
      implication := "Rejection at highs despite bullish close. Potential resistance area.";
      strength := "Medium";
      timeframe := "Short-term" |} confluences)
  else mret confluences.

Definition lower_wick_analysis (row : Series) (confluences : confluence_set)
  : result confluence_set :=
  lw ← row.["Lower_Wick"];
  b ← row.["Body_Size"];
  c ← py_and (fgt lw (b * 2)%float)
             (close ← row.["Close"]; open ← row.["Open"]; mret (flt close open));
  if c : bool then
    v ← row.["Lower_Wick"];
    mret (append bullish {|
      indicator := "Price Action - Wicks";
      condition := [Txt "Long lower wick on bearish candle (Wick: "; Num ".2f" v; Txt "%)"];
      implication := "Support found at lows despite bearish close. Potential support area.";
      strength := "Medium";
      timeframe := "Short-term" |} confluences)
  else mret confluences.

Definition analyze_price_action (self : TradingAnalyzer) (row : Series)
  : result confluence_set :=
  let confluences := no_confluences in
  confluences ← candle_analysis row confluences;
  confluences ← upper_wick_analysis row confluences;
  confluences ← lower_wick_analysis row confluences;
  mret confluences.

(** ** Gathering the five evaluators *)

(** [df.iloc[-1]]: the last row, [IndexError] on an empty frame. *)
Definition iloc_last (df : list Series) : result Series :=
  match last df with
  | Some row => Ok row
  | None => Raise IndexError
  end.

Definition generate_comprehensive_analysis (self : TradingAnalyzer) (df : list Series)
  : result (confluence_set * Series) :=
  latest_row ← iloc_last df;
  momentum_conf ← analyze_momentum_confluence self latest_row;
  trend_conf ← analyze_trend_confluence self latest_row;
  volatility_conf ← analyze_volatility_confluence self latest_row;
  volume_conf ← analyze_volume_confluence self latest_row;
  price_action_conf ← analyze_price_action self latest_row;
  let all_confluences := {|
    cs_bullish := cs_bullish momentum_conf ++ cs_bullish trend_conf ++
                  cs_bullish volatility_conf ++ cs_bullish volume_conf ++
                  cs_bullish price_action_conf;
    cs_bearish := cs_bearish momentum_conf ++ cs_bearish trend_conf ++
                  cs_bearish volatility_conf ++ cs_bearish volume_conf ++
                  cs_bearish price_action_conf;
    cs_neutral := cs_neutral momentum_conf ++ cs_neutral trend_conf ++
                  cs_neutral volatility_conf ++ cs_neutral volume_conf ++
                  cs_neutral price_action_conf |} in
  mret (all_confluences, latest_row).

(** ** The aggregator *)

(** A Python number: [0] in the first return is an [int], the
    percentages are floats. *)
Inductive pynum : Type :=
  | PyInt (z : Z)
  | PyFloat (f : float).

Definition Z2SF (z : Z) : spec_float :=
  match z with
  | Z0 => S754_zero false
  | Zpos p => S754_finite false p 0
  | Zneg p => S754_finite true p 0
  end.

(** [a / b] on two Python integers: the exact quotient rounded once to
    binary64 (the caller guards [b = 0]). *)
Definition true_divide (a b : Z) : float :=
  SF2Prim (SFdiv prec emax (Z2SF a) (Z2SF b)).

Definition strength_weights : gmap string Z :=
  <["Strong" := 3]> (<["Medium" := 2]> (<["Low" := 1]> ∅)).

(** [strength_weights.get(conf['strength'], 1)] *)
Definition weight (conf : signal) : Z :=
  default 1 (strength_weights !! strength conf).

(** [sum(...)]: left to right from [0]. *)
Definition py_sum (l : list Z) : Z := foldl Z.add 0 l.

Definition score (l : list signal) : Z := py_sum (weight <$> l).

Definition calculate_confluence_strength (self : TradingAnalyzer)
  (confluences : confluence_set) : string * pynum :=
  let bullish_score := score (cs_bullish confluences) in
  let bearish_score := score (cs_bearish confluences) in
  let neutral_score := score (cs_neutral confluences) in
  let total_score := bullish_score + bearish_score + neutral_score in
  if total_score =? 0 then ("No Clear Signal", PyInt 0)
  else if (bullish_score >? bearish_score)
          && (bullish_score >=? confluence_threshold self) then
    let bias_strength := (true_divide bullish_score total_score * 100)%float in
    ("Bullish Bias", PyFloat bias_strength)
  else if (bearish_score >? bullish_score)
          && (bearish_score >=? confluence_threshold self) then
    let bias_strength := (true_divide bearish_score total_score * 100)%float in
    ("Bearish Bias", PyFloat bias_strength)
  else
    ("Mixed/Neutral",
     PyFloat (true_divide (Z.max bullish_score bearish_score) total_score * 100)%float).

(** The quantities named in the aggregator, for the statements below. *)
Definition bullish_score (c : confluence_set) : Z := score (cs_bullish c).
Definition bearish_score (c : confluence_set) : Z := score (cs_bearish c).
Definition neutral_score (c : confluence_set) : Z := score (cs_neutral c).
Definition total_score (c : confluence_set) : Z :=
  bullish_score c + bearish_score c + neutral_score c.

(** [part / total * 100] as the aggregator computes it. *)
Definition percent_of (part total : Z) : float :=
  (true_divide part total * 100)%float.

(** ** Notions used in the statements *)

(** The signals of a list that carry a given indicator name. *)
Definition from_indicator (name : string) (l : list signal) : list signal :=
  filter (λ s, indicator s = name) l.

(** [c'] is [c], or [c] with one more signal named [name]. *)
Definition adds (name : string) (c c' : confluence_set) : Prop :=
  c' = c ∨ ∃ d s, indicator s = name ∧ c' = append d s c.

Definition agree_on (fields : list string) (r1 r2 : Series) : Prop :=
  ∀ k, k ∈ fields → r1 !! k = r2 !! k.

Definition has_fields (fields : list string) (r : Series) : Prop :=
  ∀ k, k ∈ fields → is_Some (r !! k).

Definition missing_field (fields : list string) (r : Series) (e : exn) : Prop :=
  ∃ k, k ∈ fields ∧ e = KeyError k ∧ r !! k = None.

(** A block that looks at the columns [fields] only: rows that agree
    there give the same outcome, the block returns when they are all
    present, and it raises nothing but the [KeyError] of an absent one. *)
Record block_reads (fields : list string)
    (f : Series → confluence_set → result confluence_set) : Prop := {
  reads_agree r1 r2 c : agree_on fields r1 r2 → f r1 c = f r2 c;
  reads_total r c : has_fields fields r → ∃ c', f r c = Ok c';
  reads_error r c e : f r c = Raise e → missing_field fields r e
}.

(** The columns each evaluator reads, in the order of its blocks. *)
Definition momentum_fields : list string :=
  ["RSI_14"; "Stoch_K"; "Stoch_D"; "Williams_R"].
Definition trend_fields : list string :=
  ["EMA_9"; "EMA_21"; "EMA_50"; "Close"; "EMA_21";
   "MACD"; "MACD_Signal"; "MACD_Histogram"; "ADX"; "DI_Plus"; "DI_Minus"].
Definition volatility_fields : list string :=
  ["BB_Position"; "BB_Width"; "ATR_Percent"].
Definition volume_fields : list string := ["Volume_Ratio"; "CMF"].
Definition price_action_fields : list string :=
  ["Body_Size"; "Close"; "Open"; "Upper_Wick"; "Body_Size"; "Close"; "Open";
   "Lower_Wick"; "Body_Size"; "Close"; "Open"].
Definition required_fields : list string :=
  momentum_fields ++ trend_fields ++ volatility_fields ++ volume_fields
  ++ price_action_fields.

(** The spec's valid snapshot (its sections 3 and 7): every column an
    evaluator reads is present and finite. The code has no such test. *)
Definition spec_valid_snapshot (row : Series) : bool :=
  forallb (λ k, match row !! k with
                | Some v => PrimFloat.is_finite v
                | None => false
                end) required_fields.

(** A row on which only the price-versus-EMA rule fires. *)
Definition quiet_row : Series := list_to_map [
  ("RSI_14", 60%float); ("Stoch_K", 50%float); ("Stoch_D", 50%float);
  ("Williams_R", (-50)%float);
  ("EMA_9", 100%float); ("EMA_21", 100%float); ("EMA_50", 100%float);
  ("Close", 101%float); ("Open", 100%float);
  ("MACD", 0%float); ("MACD_Signal", 0%float); ("MACD_Histogram", 0%float);
  ("ADX", 22%float); ("DI_Plus", 20%float); ("DI_Minus", 20%float);
  ("BB_Position", 0.5%float); ("BB_Width", 5%float); ("ATR_Percent", 1%float);
  ("Volume_Ratio", 1%float); ("CMF", 0%float);
  ("Body_Size", 1%float); ("Upper_Wick", 0.5%float); ("Lower_Wick", 0.5%float)].

(** The same row with a NaN RSI, without its CMF column, and without
    its %D column. *)
Definition nan_rsi_row : Series := <["RSI_14" := nan]> quiet_row.
Definition no_cmf_row : Series := delete "CMF" quiet_row.
Definition no_stoch_d_row : Series := delete "Stoch_D" quiet_row.

(** The row of the end-to-end scenario of the specification. *)
Definition scenario_row : Series := list_to_map [
  ("RSI_14", 25%float); ("Stoch_K", 15%float); ("Stoch_D", 12%float);
  ("Williams_R", (-85)%float);
  ("EMA_9", 103%float); ("EMA_21", 102%float); ("EMA_50", 101%float);
  ("Close", 104%float); ("Open", 101.5%float);
  ("MACD", 1%float); ("MACD_Signal", 0.5%float); ("MACD_Histogram", 0.5%float);
  ("ADX", 30%float); ("DI_Plus", 25%float); ("DI_Minus", 15%float);
  ("BB_Position", 0.05%float); ("BB_Width", 5%float); ("ATR_Percent", 1%float);
  ("Volume_Ratio", 1%float); ("CMF", 0.25%float);
  ("Body_Size", 2.5%float); ("Upper_Wick", 0.5%float); ("Lower_Wick", 0.5%float)].

(** The dict built at the end of [generate_comprehensive_analysis]. *)
Definition all_confluences_of (m t vl vo p : confluence_set) : confluence_set := {|
  cs_bullish := cs_bullish m ++ cs_bullish t ++ cs_bullish vl ++ cs_bullish vo
                ++ cs_bullish p;
  cs_bearish := cs_bearish m ++ cs_bearish t ++ cs_bearish vl ++ cs_bearish vo
                ++ cs_bearish p;
  cs_neutral := cs_neutral m ++ cs_neutral t ++ cs_neutral vl ++ cs_neutral vo
                ++ cs_neutral p |}.

(** A signal whose strength is Strong or Medium. *)
Definition strong_or_medium (s : signal) : bool :=
  bool_decide (strength s = "Strong" ∨ strength s = "Medium").

(** A bare signal of a given strength, for examples of the aggregator. *)
Definition sample_signal (str : string) : signal :=
  {| indicator := "RSI (14)"; condition := []; implication := "";
     strength := str; timeframe := "Short-term" |}.








(** ** The trading plan *)

(** One call of [print]: the pieces of the printed f-string. *)
Definition printed : Type := list fpart.

(** Code that prints and may raise: what was printed so far, and the
    outcome. *)
Record out (A : Type) : Type := Out {
  printed_lines : list printed;
  outcome : result A
}.
Arguments Out {A} _ _.
Arguments printed_lines {A} _.
Arguments outcome {A} _.



(** An expression that may raise, evaluated without printing. *)
Definition eval {A} (r : result A) : out A := Out [] r.







(** ** The report *)









(** ** Calls *)

(** The outcome of a call: what it returns, or the [TypeError] that
    Python raises when the arguments do not fit the signature. *)
Inductive call (A : Type) : Type :=
  | Returns (a : A)
  | TypeError.
Arguments Returns {A} a.
Arguments TypeError {A}.

(** A call of [TradingAnalyzer] with positional arguments [args] and
    keyword arguments [kwargs]. [__init__(self)] declares no
    parameter besides [self]: a call with any positional or keyword
    argument is a [TypeError], and the call without arguments builds
    the analyzer whose threshold is the 3 of the constructor's body. *)
Definition new_TradingAnalyzer (args : list pynum) (kwargs : list (string * pynum))
  : call TradingAnalyzer :=
  match args, kwargs with
  | [], [] => Returns init
  | _, _ => TypeError
  end.

(** A call of [self.calculate_confluence_strength] on [confluences]
    with further positional arguments [args] and keyword arguments
    [kwargs]: the method declares [self] and [confluences] only. *)
Definition call_calculate_confluence_strength (self : TradingAnalyzer)
    (confluences : confluence_set) (args : list pynum) (kwargs : list (string * pynum))
  : call (string * pynum) :=
  match args, kwargs with
  | [], [] => Returns (calculate_confluence_strength self confluences)
  | _, _ => TypeError
  end.

(** * Properties *)

(** ** The order of binary64 numbers *)

Lemma SFcompare_antisym (x y : spec_float) :
  SFcompare y x = option_map CompOpp (SFcompare x y).
Proof.
  destruct x as [[]|[]| |[] mx ex], y as [[]|[]| |[] my ey]; simpl; try reflexivity;
    rewrite (Z.compare_antisym ex ey); destruct (ex ?= ey); simpl; try reflexivity;
    rewrite (Pos.compare_cont_antisym mx my Eq); simpl; try reflexivity;
    destruct (Pos.compare_cont Eq mx my); reflexivity.
Qed.

Lemma SFcompare_lt_trans (x y z : spec_float) :
  SFcompare x y = Some Lt → SFcompare y z = Some Lt → SFcompare x z = Some Lt.
Proof.
  destruct x as [[]|[]| |[] mx ex], y as [[]|[]| |[] my ey], z as [[]|[]| |[] mz ez];
    simpl; try congruence; intros Hxy Hyz; f_equal;
    injection Hxy as Hxy; injection Hyz as Hyz;
    change (Pos.compare_cont Eq) with Pos.compare in *;
    destruct (Z.compare_spec ex ey), (Z.compare_spec ey ez), (Z.compare_spec ex ez);
    try discriminate; try lia; try reflexivity;
    destruct (Pos.compare_spec mx my), (Pos.compare_spec my mz), (Pos.compare_spec mx mz);
    simpl in *; try discriminate; try lia; try reflexivity.
Qed.

Section FloatOrder.
  Implicit Types a b c : float.

Lemma flt_trans a b c : flt a b = true → flt b c = true → flt a c = true.
  Proof.
    unfold flt. rewrite !ltb_spec. unfold SFltb.
    destruct (SFcompare (Prim2SF a) (Prim2SF b)) as [[]|] eqn:Hab; try discriminate.
    destruct (SFcompare (Prim2SF b) (Prim2SF c)) as [[]|] eqn:Hbc; try discriminate.
    now rewrite (SFcompare_lt_trans _ _ _ Hab Hbc).
  Qed.

Lemma flt_fle a b : flt a b = true → fle a b = true.
  Proof.
    unfold flt, fle. rewrite ltb_spec, leb_spec. unfold SFltb, SFleb.
    now destruct (SFcompare (Prim2SF a) (Prim2SF b)) as [[]|].
  Qed.

Lemma fle_not_fgt a b : fle a b = true → fgt a b = false.
  Proof.
    unfold fgt, fle. rewrite ltb_spec, leb_spec. unfold SFltb, SFleb.
    rewrite (SFcompare_antisym (Prim2SF a) (Prim2SF b)).
    now destruct (SFcompare (Prim2SF a) (Prim2SF b)) as [[]|].
  Qed.

Lemma flt_not_fgt a b : flt a b = true → fgt a b = false.
  Proof. intros H. now apply fle_not_fgt, flt_fle. Qed.

Lemma fgt_not_flt a b : fgt a b = true → flt a b = false.
  Proof.
    intros H. destruct (flt a b) eqn:E; [|done].
    apply flt_not_fgt in E. congruence.
  Qed.

Lemma fgt_not_fle a b : fgt a b = true → fle a b = false.
  Proof.
    intros H. destruct (fle a b) eqn:E; [|done].
    apply fle_not_fgt in E. congruence.
  Qed.

  (** Two thresholds [lo < hi]: nothing is below [lo] and above [hi]. *)
Lemma flt_fgt_apart lo hi a :
    flt lo hi = true → flt a lo = true → fgt a hi = false.
  Proof.
    intros Hlh Hal. apply flt_not_fgt. exact (flt_trans _ _ _ Hal Hlh).
  Qed.

Lemma fgt_flt_apart lo hi a :
    flt lo hi = true → fgt a hi = true → flt a lo = false.
  Proof.
    intros Hlh Hah. destruct (flt a lo) eqn:E; [|done].
    rewrite (flt_fgt_apart lo hi a Hlh E) in Hah. discriminate.
  Qed.

Lemma fle_flt_apart lo hi a :
    flt lo hi = true → fle hi a = true → flt a lo = false.
  Proof.
    intros Hlh Hha. destruct (flt a lo) eqn:E; [|done].
    pose proof (flt_trans _ _ _ E Hlh) as Hlt.
    apply fle_not_fgt in Hha. unfold fgt in Hha. unfold flt in Hlt. congruence.
  Qed.

Lemma fle_fgt_apart lo hi a :
    flt lo hi = true → fle a lo = true → fgt a hi = false.
  Proof.
    intros Hlh Hal. destruct (fgt a hi) eqn:E; [|done].
    assert (flt lo a = true) as Hlt by exact (flt_trans _ _ _ Hlh E).
    apply fle_not_fgt in Hal. unfold fgt in Hal. unfold flt in Hlt. congruence.
  Qed.
End FloatOrder.

(** ** Scores *)

Lemma weight_cases (s : signal) :
  weight s = if decide (strength s = "Strong") then 3
             else if decide (strength s = "Medium") then 2
             else 1.
Proof.
  unfold weight, strength_weights.
  rewrite !lookup_insert, lookup_empty.
  repeat case_decide; try congruence; reflexivity.
Qed.

Lemma weight_pos (s : signal) : 1 ≤ weight s ≤ 3.
Proof. rewrite weight_cases. repeat case_decide; lia. Qed.

Lemma py_sum_from (a : Z) (l : list Z) : foldl Z.add a l = a + py_sum l.
Proof.
  unfold py_sum. revert a. induction l as [|x l IH]; intros a; simpl.
  - lia.
  - rewrite (IH (a + x)), (IH (0 + x)). lia.
Qed.

Lemma score_nil : score [] = 0.
Proof. reflexivity. Qed.

Lemma score_cons (s : signal) (l : list signal) : score (s :: l) = weight s + score l.
Proof.
  unfold score. rewrite fmap_cons. unfold py_sum at 1. simpl.
  rewrite py_sum_from. lia.
Qed.


Lemma score_nonneg (l : list signal) : 0 ≤ score l.
Proof.
  induction l as [|s l IH]; [rewrite score_nil; lia|].
  rewrite score_cons. pose proof (weight_pos s). lia.
Qed.

Lemma score_zero (l : list signal) : score l = 0 ↔ l = [].
Proof.
  split; [|intros ->; apply score_nil].
  destruct l as [|s l]; [done|].
  rewrite score_cons. pose proof (weight_pos s). pose proof (score_nonneg l). lia.
Qed.

Lemma total_score_zero (c : confluence_set) : total_score c = 0 ↔ c = no_confluences.
Proof.
  unfold total_score, bullish_score, bearish_score, neutral_score.
  destruct c as [b be n]; simpl. split.
  - intros H. pose proof (score_nonneg b). pose proof (score_nonneg be).
    pose proof (score_nonneg n).
    assert (score b = 0) as ->%score_zero by lia.
    assert (score be = 0) as ->%score_zero by lia.
    assert (score n = 0) as ->%score_zero by lia.
    reflexivity.
  - intros [= -> -> ->]. reflexivity.
Qed.

Lemma true_divide_zero (t : Z) : 0 < t → true_divide 0 t = 0%float.
Proof. destruct t; try lia. intros _. reflexivity. Qed.

(** ** The aggregator *)

Lemma calculate_confluence_strength_eq (self : TradingAnalyzer) (c : confluence_set) :
  calculate_confluence_strength self c =
    if total_score c =? 0 then ("No Clear Signal", PyInt 0)
    else if (bullish_score c >? bearish_score c)
            && (bullish_score c >=? confluence_threshold self)
    then ("Bullish Bias", PyFloat (percent_of (bullish_score c) (total_score c)))
    else if (bearish_score c >? bullish_score c)
            && (bearish_score c >=? confluence_threshold self)
    then ("Bearish Bias", PyFloat (percent_of (bearish_score c) (total_score c)))
    else ("Mixed/Neutral",
          PyFloat (percent_of (Z.max (bullish_score c) (bearish_score c)) (total_score c))).
Proof. reflexivity. Qed.

Lemma bullish_score_nonneg (c : confluence_set) : 0 ≤ bullish_score c.
Proof. apply score_nonneg. Qed.

Lemma bearish_score_nonneg (c : confluence_set) : 0 ≤ bearish_score c.
Proof. apply score_nonneg. Qed.

Lemma neutral_score_nonneg (c : confluence_set) : 0 ≤ neutral_score c.
Proof. apply score_nonneg. Qed.

(** Turns the boolean tests of the aggregator into (in)equalities. *)
Ltac z_tests :=
  repeat match goal with
  | |- context [?a =? ?b] => destruct (Z.eqb_spec a b)
  | |- context [?a >? ?b] => rewrite (Z.gtb_ltb a b); destruct (Z.ltb_spec b a)
  | |- context [?a >=? ?b] => rewrite (Z.geb_leb a b); destruct (Z.leb_spec b a)
  end; simpl.

(** C1: weights are Strong=3, Medium=2, Low=1 and 1 for any other
    strength; each score is the sum of the weights of its list and the
    total is the sum of the three; the result is ("No Clear Signal", 0)
    exactly when the total is 0, ("Bullish Bias", bullish/total*100)
    when bullish beats bearish and reaches the threshold, the symmetric
    bearish result, and ("Mixed/Neutral", max(bullish, bearish)/total*100)
    in every other case. *)
Theorem C1_aggregator_contract (self : TradingAnalyzer) (c : confluence_set) :
  let b := bullish_score c in
  let be := bearish_score c in
  let t := total_score c in
  let th := confluence_threshold self in
  (∀ s, (strength s = "Strong" → weight s = 3)
        ∧ (strength s = "Medium" → weight s = 2)
        ∧ (strength s = "Low" → weight s = 1)
        ∧ (strength s ∉ ["Strong"; "Medium"; "Low"] → weight s = 1))
  ∧ (∀ d, score (cs_get d c) = foldr (λ s acc, weight s + acc) 0 (cs_get d c))
  ∧ t = score (cs_bullish c) + score (cs_bearish c) + score (cs_neutral c)
  ∧ (calculate_confluence_strength self c = ("No Clear Signal", PyInt 0) ↔ t = 0)
  ∧ (be < b → th ≤ b →
     calculate_confluence_strength self c = ("Bullish Bias", PyFloat (percent_of b t)))
  ∧ (b < be → th ≤ be →
     calculate_confluence_strength self c = ("Bearish Bias", PyFloat (percent_of be t)))
  ∧ (t ≠ 0 → ¬ (be < b ∧ th ≤ b) → ¬ (b < be ∧ th ≤ be) →
     calculate_confluence_strength self c =
       ("Mixed/Neutral", PyFloat (percent_of (Z.max b be) t))).
Proof.
  intros b be t th. subst b be t th.
  pose proof (bullish_score_nonneg c) as Hb.
  pose proof (bearish_score_nonneg c) as Hbe.
  pose proof (neutral_score_nonneg c) as Hn.
  repeat split.
  - intros E. rewrite weight_cases, E. reflexivity.
  - intros E. rewrite weight_cases, E. reflexivity.
  - intros E. rewrite weight_cases, E. reflexivity.
  - intros E. rewrite weight_cases.
    repeat case_decide; try reflexivity; exfalso; apply E; set_solver.
  - intros d. induction (cs_get d c) as [|s l IH]; [reflexivity|].
    rewrite score_cons, IH. reflexivity.
  - rewrite calculate_confluence_strength_eq. z_tests; congruence.
  - rewrite calculate_confluence_strength_eq. intros ->. reflexivity.
  - intros H1 H2. rewrite calculate_confluence_strength_eq.
    unfold total_score in *. z_tests; try lia; reflexivity.
  - intros H1 H2. rewrite calculate_confluence_strength_eq.
    unfold total_score in *. z_tests; try lia; reflexivity.
  - intros H1 H2 H3. rewrite calculate_confluence_strength_eq.
    z_tests; try lia; reflexivity.
Qed.

(** C4: with a positive total, equal bullish and bearish scores always
    give "Mixed/Neutral", whatever the threshold, with confidence
    max(bullish, bearish)/total*100. *)
Theorem C4_tie_is_mixed (self : TradingAnalyzer) (c : confluence_set) :
  0 < total_score c →
  bullish_score c = bearish_score c →
  calculate_confluence_strength self c =
    ("Mixed/Neutral",
     PyFloat (percent_of (Z.max (bullish_score c) (bearish_score c)) (total_score c))).
Proof.
  intros Ht Heq. rewrite calculate_confluence_strength_eq.
  z_tests; try lia; reflexivity.
Qed.

(** C10: with no bullish and no bearish signal but some neutral one the
    result is ("Mixed/Neutral", 0.0); ("No Clear Signal", 0) is returned
    only for the confluence set whose three lists are empty. *)
Theorem C10_neutral_only (self : TradingAnalyzer) (c : confluence_set) :
  (cs_bullish c = [] → cs_bearish c = [] → cs_neutral c ≠ [] →
   calculate_confluence_strength self c = ("Mixed/Neutral", PyFloat 0))
  ∧ (calculate_confluence_strength self c = ("No Clear Signal", PyInt 0) ↔
     c = no_confluences).
Proof.
  split.
  - intros Hb Hbe Hn. rewrite calculate_confluence_strength_eq.
    assert (0 < neutral_score c) as Hpos.
    { pose proof (neutral_score_nonneg c).
      destruct (decide (neutral_score c = 0)) as [E%score_zero|]; [done|lia]. }
    unfold total_score, bullish_score, bearish_score. rewrite Hb, Hbe, score_nil.
    simpl. z_tests; try lia.
    unfold percent_of. rewrite true_divide_zero by lia. reflexivity.
  - rewrite <- total_score_zero. rewrite calculate_confluence_strength_eq.
    z_tests; split; intros; congruence.
Qed.

(** ** Reading the evaluators *)

Lemma getitem_Some (row : Series) (k : string) (v : float) :
  row !! k = Some v → row.[k] = Ok v.
Proof. unfold getitem. now intros ->. Qed.

Lemma bind_Ok {A B} (m : result A) (f : A → result B) (b : B) :
  (x ← m; f x) = Ok b → ∃ a, m = Ok a ∧ f a = Ok b.
Proof. destruct m as [a|e]; [eauto|discriminate]. Qed.

Lemma bind_ret_l {A B} (a : A) (f : A → result B) : (x ← Ok a; f x) = f a.
Proof. reflexivity. Qed.

Lemma cs_get_append (d' d : direction) (s : signal) (c : confluence_set) :
  cs_get d' (append d s c) = cs_get d' c ++ (if decide (d = d') then [s] else []).
Proof.
  destruct d, d'; unfold append; simpl; try reflexivity; now rewrite app_nil_r.
Qed.

Lemma from_indicator_append (name : string) (d' d : direction) (s : signal)
    (c : confluence_set) :
  from_indicator name (cs_get d' (append d s c)) =
    from_indicator name (cs_get d' c)
    ++ (if decide (d = d' ∧ indicator s = name) then [s] else []).
Proof.
  unfold from_indicator. rewrite cs_get_append, filter_app.
  f_equal. repeat case_decide; try (exfalso; tauto).
  - rewrite filter_cons_True by tauto. reflexivity.
  - rewrite filter_cons_False by tauto. reflexivity.
  - reflexivity.
Qed.

Lemma adds_other_indicator (name n : string) (c c' : confluence_set) (d : direction) :
  adds name c c' → name ≠ n →
  from_indicator n (cs_get d c') = from_indicator n (cs_get d c).
Proof.
  intros [->|(d0 & s & Hs & ->)] Hne; [reflexivity|].
  rewrite from_indicator_append. case_decide as H; [|apply app_nil_r].
  destruct H as [_ H]. congruence.
Qed.

(** Runs a block: exposes every lookup and every test. *)
Ltac run_block :=
  unfold mbind, result_bind, mret, result_ret, py_and, getitem in *;
  repeat (case_match; simplify_eq/=; try done).

(** Rewrites the tests of the goal with their known outcomes. *)
Ltac use_tests :=
  repeat match goal with
  | H : ?b = _ |- context [if ?b then _ else _] => rewrite H
  end.

Ltac adds_done :=
  first [ by left | right; do 2 eexists; split; [|reflexivity]; reflexivity ].

(** *** Momentum *)


Lemma stochastic_analysis_adds row c c' :
  stochastic_analysis row c = Ok c' → adds "Stochastic" c c'.
Proof. unfold stochastic_analysis, adds. intros H. run_block; adds_done. Qed.

Lemma williams_r_analysis_adds row c c' :
  williams_r_analysis row c = Ok c' → adds "Williams %R" c c'.
Proof. unfold williams_r_analysis, adds. intros H. run_block; adds_done. Qed.

Lemma analyze_momentum_confluence_Ok self row c :
  analyze_momentum_confluence self row = Ok c →
  ∃ c1 c2, rsi_analysis row no_confluences = Ok c1
           ∧ stochastic_analysis row c1 = Ok c2
           ∧ williams_r_analysis row c2 = Ok c.
Proof.
  unfold analyze_momentum_confluence. cbv zeta.
  intros (c1 & H1 & (c2 & H2 & (c3 & H3 & [= ->])%bind_Ok)%bind_Ok)%bind_Ok.
  eauto.
Qed.

(** Closes [∃ s, c' = append d s c ∧ strength s = _ ∧ indicator s = _]. *)
Ltac one_signal := eexists; split; [reflexivity|split; reflexivity].

(** The signal of the RSI block, as a function of the RSI value. *)
Lemma rsi_analysis_value row c c' v :
  row !! "RSI_14" = Some v →
  rsi_analysis row c = Ok c' →
  (flt v 30 = true
   ∧ ∃ s, c' = append bullish s c ∧ strength s = "Medium" ∧ indicator s = "RSI (14)")
  ∨ (flt v 30 = false ∧ fgt v 70 = true
     ∧ ∃ s, c' = append bearish s c ∧ strength s = "Medium" ∧ indicator s = "RSI (14)")
  ∨ (flt v 30 = false ∧ fgt v 70 = false ∧ fle 45 v && fle v 55 = true
     ∧ ∃ s, c' = append neutral s c ∧ strength s = "Low" ∧ indicator s = "RSI (14)")
  ∨ (flt v 30 = false ∧ fgt v 70 = false ∧ fle 45 v && fle v 55 = false ∧ c' = c).
Proof.
  intros Hv. unfold rsi_analysis. rewrite !(getitem_Some _ _ _ Hv).
  intros H. run_block.
  - left. split; [done|one_signal].
  - right; left. do 2 (split; [done|]). one_signal.
  - right; right; left. do 3 (split; [done|]). one_signal.
  - right; right; right. done.
Qed.

Lemma from_indicator_first (name : string) (d d0 : direction) (s : signal) :
  indicator s = name →
  from_indicator name (cs_get d (append d0 s no_confluences)) =
    if decide (d0 = d) then [s] else [].
Proof.
  intros Hs. rewrite from_indicator_append. simpl.
  destruct d; simpl; repeat case_decide; try reflexivity; exfalso; tauto.
Qed.

Lemma momentum_rsi_part self row c :
  analyze_momentum_confluence self row = Ok c →
  ∃ c1, rsi_analysis row no_confluences = Ok c1
        ∧ ∀ d, from_indicator "RSI (14)" (cs_get d c)
               = from_indicator "RSI (14)" (cs_get d c1).
Proof.
  intros (c1 & c2 & H1 & H2 & H3)%analyze_momentum_confluence_Ok.
  exists c1. split; [exact H1|]. intros d.
  rewrite (adds_other_indicator "Williams %R" _ c2 c d)
    by (eauto using williams_r_analysis_adds || done).
  apply (adds_other_indicator "Stochastic"); [|done].
  eauto using stochastic_analysis_adds.
Qed.

(** C5: the RSI rules of the momentum evaluator are mutually exclusive
    and strict. RSI < 30 gives exactly one RSI signal, bullish and
    Medium; RSI > 70 exactly one, bearish and Medium; 45 <= RSI <= 55
    exactly one, neutral and Low; RSI = 30.0 gives no bullish and
    RSI = 70.0 no bearish RSI signal. *)
Theorem C5_rsi_rules (self : TradingAnalyzer) (row : Series) (c : confluence_set)
    (v : float) :
  analyze_momentum_confluence self row = Ok c →
  row !! "RSI_14" = Some v →
  let rsi d := from_indicator "RSI (14)" (cs_get d c) in
  (flt v 30 = true →
     (∃ s, rsi bullish = [s] ∧ strength s = "Medium")
     ∧ rsi bearish = [] ∧ rsi neutral = [])
  ∧ (fgt v 70 = true →
     (∃ s, rsi bearish = [s] ∧ strength s = "Medium")
     ∧ rsi bullish = [] ∧ rsi neutral = [])
  ∧ (fle 45 v = true → fle v 55 = true →
     (∃ s, rsi neutral = [s] ∧ strength s = "Low")
     ∧ rsi bullish = [] ∧ rsi bearish = [])
  ∧ (v = 30%float → rsi bullish = [] ∧ rsi bearish = [] ∧ rsi neutral = [])
  ∧ (v = 70%float → rsi bullish = [] ∧ rsi bearish = [] ∧ rsi neutral = []).
Proof.
  intros (c1 & H1 & Hc)%momentum_rsi_part Hv rsi. subst rsi. cbv beta.
  rewrite !Hc. clear Hc.
  pose proof (rsi_analysis_value _ _ _ _ Hv H1) as Hcases.
  assert (flt 30 70 = true) as H3070 by reflexivity.
  assert (flt 30 45 = true) as H3045 by reflexivity.
  assert (flt 55 70 = true) as H5570 by reflexivity.
  repeat apply conj.
  - intros Hlt.
    destruct Hcases as [(_ & s & -> & Hs & Hi)|[(E & _)|[(E & _)|(E & _)]]];
      try congruence.
    rewrite !(from_indicator_first _ _ _ _ Hi). simpl. eauto.
  - intros Hgt. pose proof (fgt_flt_apart _ _ _ H3070 Hgt) as Hn.
    destruct Hcases as [(E & _)|[(_ & _ & s & -> & Hs & Hi)|[(_ & E & _)|(_ & E & _)]]];
      try congruence.
    rewrite !(from_indicator_first _ _ _ _ Hi). simpl. eauto.
  - intros Hlo Hhi.
    pose proof (fle_flt_apart _ _ _ H3045 Hlo) as Hn1.
    pose proof (fle_fgt_apart _ _ _ H5570 Hhi) as Hn2.
    destruct Hcases as [(E & _)|[(_ & E & _)|[(_ & _ & _ & s & -> & Hs & Hi)|(_ & _ & E & _)]]];
      try congruence.
    + rewrite !(from_indicator_first _ _ _ _ Hi). simpl. eauto.
    + rewrite Hlo, Hhi in E. discriminate.
  - intros ->.
    destruct Hcases as [(E & _)|[(_ & E & _)|[(_ & _ & E & _)|(_ & _ & _ & ->)]]];
      try (vm_compute in E; discriminate).
    done.
  - intros ->.
    destruct Hcases as [(E & _)|[(_ & E & _)|[(_ & _ & E & _)|(_ & _ & _ & ->)]]];
      try (vm_compute in E; discriminate).
    done.
Qed.

(** *** Trend *)

Lemma ema_alignment_analysis_adds row c c' :
  ema_alignment_analysis row c = Ok c' → adds "EMA Alignment" c c'.
Proof. unfold ema_alignment_analysis, adds. intros H. run_block; adds_done. Qed.

Lemma price_vs_emas_adds row c c' :
  price_vs_emas row c = Ok c' → adds "Price vs EMA 21" c c'.
Proof. unfold price_vs_emas, adds. intros H. run_block; adds_done. Qed.

Lemma macd_analysis_adds row c c' :
  macd_analysis row c = Ok c' → adds "MACD" c c'.
Proof. unfold macd_analysis, adds. intros H. run_block; adds_done. Qed.


Lemma analyze_trend_confluence_Ok self row c :
  analyze_trend_confluence self row = Ok c →
  ∃ c1 c2 c3, ema_alignment_analysis row no_confluences = Ok c1
              ∧ price_vs_emas row c1 = Ok c2
              ∧ macd_analysis row c2 = Ok c3
              ∧ adx_trend_strength row c3 = Ok c.
Proof.
  unfold analyze_trend_confluence. cbv zeta.
  intros (c1 & H1 & (c2 & H2 & (c3 & H3 & (c4 & H4 & [= ->])%bind_Ok)%bind_Ok)%bind_Ok)%bind_Ok.
  eauto 10.
Qed.

(** The signal of the ADX block, as a function of the ADX value. *)
Lemma adx_trend_strength_value row c c' a :
  row !! "ADX" = Some a →
  adx_trend_strength row c = Ok c' →
  (fgt a 25 = true
   ∧ ∃ dp dm s, row !! "DI_Plus" = Some dp ∧ row !! "DI_Minus" = Some dm
       ∧ c' = append (if fgt dp dm then bullish else bearish) s c
       ∧ strength s = (if fgt a 40 then "Strong" else "Medium")
       ∧ indicator s = "ADX Trend Strength")
  ∨ (fgt a 25 = false ∧ flt a 20 = true
     ∧ ∃ s, c' = append neutral s c ∧ strength s = "Medium"
            ∧ indicator s = "ADX Trend Strength")
  ∨ (fgt a 25 = false ∧ flt a 20 = false ∧ c' = c).
Proof.
  intros Ha. unfold adx_trend_strength. rewrite !(getitem_Some _ _ _ Ha).
  intros H. run_block.
  all: first
    [ left; split; [done|]; do 3 eexists; do 2 (split; [reflexivity|]);
      use_tests; split; [reflexivity|split; reflexivity]
    | right; left; do 2 (split; [done|]); one_signal
    | right; right; done ].
Qed.

Lemma from_indicator_none_yet (name n : string) (c : confluence_set) (d : direction) :
  adds name no_confluences c → name ≠ n → from_indicator n (cs_get d c) = [].
Proof.
  intros H Hne. rewrite (adds_other_indicator _ _ _ _ d H Hne). now destruct d.
Qed.

Lemma trend_adx_part self row c :
  analyze_trend_confluence self row = Ok c →
  ∃ c3, adx_trend_strength row c3 = Ok c
        ∧ ∀ d, from_indicator "ADX Trend Strength" (cs_get d c3) = [].
Proof.
  intros (c1 & c2 & c3 & H1 & H2 & H3 & H4)%analyze_trend_confluence_Ok.
  exists c3. split; [exact H4|]. intros d.
  rewrite (adds_other_indicator "MACD" _ c2 c3 d)
    by (eauto using macd_analysis_adds || done).
  rewrite (adds_other_indicator "Price vs EMA 21" _ c1 c2 d)
    by (eauto using price_vs_emas_adds || done).
  apply (from_indicator_none_yet "EMA Alignment"); [|done].
  eauto using ema_alignment_analysis_adds.
Qed.

Lemma from_indicator_last (name : string) (d d0 : direction) (s : signal)
    (c : confluence_set) :
  indicator s = name →
  from_indicator name (cs_get d c) = [] →
  from_indicator name (cs_get d (append d0 s c)) = if decide (d0 = d) then [s] else [].
Proof.
  intros Hs Hc. rewrite from_indicator_append, Hc. simpl.
  repeat case_decide; try reflexivity; exfalso; tauto.
Qed.

(** C6: the ADX rule of the trend evaluator. No ADX signal at all for
    ADX in [20, 25]; for ADX > 25 exactly one, in the direction of the
    larger of DI+ and DI- (bullish only when DI+ > DI-), Strong if
    ADX > 40 and Medium otherwise; for ADX < 20 exactly one, neutral and
    Medium; so 25.0 and 20.0 give nothing and 25.01 with DI+ > DI- gives
    one bullish Medium signal. *)
Theorem C6_adx_dead_zone (self : TradingAnalyzer) (row : Series) (c : confluence_set)
    (a : float) :
  analyze_trend_confluence self row = Ok c →
  row !! "ADX" = Some a →
  let adx d := from_indicator "ADX Trend Strength" (cs_get d c) in
  (fle 20 a = true → fle a 25 = true → ∀ d, adx d = [])
  ∧ (fgt a 25 = true →
     ∃ dp dm s, row !! "DI_Plus" = Some dp ∧ row !! "DI_Minus" = Some dm
       ∧ strength s = (if fgt a 40 then "Strong" else "Medium")
       ∧ ∀ d, adx d = if decide ((if fgt dp dm then bullish else bearish) = d)
                      then [s] else [])
  ∧ (flt a 20 = true →
     ∃ s, strength s = "Medium"
          ∧ adx neutral = [s] ∧ adx bullish = [] ∧ adx bearish = [])
  ∧ (a = 25%float → ∀ d, adx d = [])
  ∧ (a = 20%float → ∀ d, adx d = [])
  ∧ (a = 25.01%float →
     ∀ dp dm, row !! "DI_Plus" = Some dp → row !! "DI_Minus" = Some dm →
              fgt dp dm = true →
     ∃ s, strength s = "Medium"
          ∧ adx bullish = [s] ∧ adx bearish = [] ∧ adx neutral = []).
Proof.
  intros (c3 & H4 & Hc3)%trend_adx_part Ha adx. subst adx. cbv beta.
  pose proof (adx_trend_strength_value _ _ _ _ Ha H4) as Hcases.
  assert (flt 20 25 = true) as H2025 by reflexivity.
  repeat apply conj.
  - intros Hlo Hhi d.
    apply fle_not_fgt in Hhi. apply fle_not_fgt in Hlo. change (flt a 20 = false) in Hlo.
    destruct Hcases as [(E & _)|[(_ & E & _)|(_ & _ & ->)]];
      first [congruence | apply Hc3].
  - intros Hgt.
    destruct Hcases as [(_ & dp & dm & s & Hp & Hm & -> & Hs & Hi)|[(E & _)|(E & _)]];
      try congruence.
    exists dp, dm, s. do 3 (split; [done|]). intros d.
    apply from_indicator_last; [done|apply Hc3].
  - intros Hlt. pose proof (flt_fgt_apart _ _ _ H2025 Hlt) as Hn.
    destruct Hcases as [(E & _)|[(_ & _ & s & -> & Hs & Hi)|(_ & E & _)]];
      try congruence.
    exists s. split; [done|].
    rewrite !(from_indicator_last _ _ _ _ _ Hi (Hc3 _)). done.
  - intros -> d.
    destruct Hcases as [(E & _)|[(_ & E & _)|(_ & _ & ->)]];
      try (vm_compute in E; discriminate). apply Hc3.
  - intros -> d.
    destruct Hcases as [(E & _)|[(_ & E & _)|(_ & _ & ->)]];
      try (vm_compute in E; discriminate). apply Hc3.
  - intros -> dp dm Hp Hm Hgt.
    destruct Hcases as [(_ & dp' & dm' & s & Hp' & Hm' & -> & Hs & Hi)|[(E & _)|(E & _)]];
      try (vm_compute in E; discriminate).
    assert (dp' = dp) as -> by congruence. assert (dm' = dm) as -> by congruence.
    rewrite Hgt. exists s. split; [exact Hs|].
    rewrite !(from_indicator_last _ _ _ _ _ Hi (Hc3 _)). done.
Qed.

(** *** Volatility, volume and price action *)



Lemma atr_analysis_adds row c c' :
  atr_analysis row c = Ok c' → adds "Average True Range" c c'.
Proof. unfold atr_analysis, adds. intros H. run_block; adds_done. Qed.

Lemma volume_analysis_adds row c c' :
  volume_analysis row c = Ok c' → adds "Volume" c c'.
Proof. unfold volume_analysis, adds. intros H. run_block; adds_done. Qed.

Lemma chaikin_money_flow_adds row c c' :
  chaikin_money_flow row c = Ok c' → adds "Chaikin Money Flow" c c'.
Proof. unfold chaikin_money_flow, adds. intros H. run_block; adds_done. Qed.

Lemma candle_analysis_adds row c c' :
  candle_analysis row c = Ok c' → adds "Price Action" c c'.
Proof. unfold candle_analysis, adds. intros H. run_block; adds_done. Qed.

Lemma upper_wick_analysis_adds row c c' :
  upper_wick_analysis row c = Ok c' → adds "Price Action - Wicks" c c'.
Proof. unfold upper_wick_analysis, adds. intros H. run_block; adds_done. Qed.

Lemma lower_wick_analysis_adds row c c' :
  lower_wick_analysis row c = Ok c' → adds "Price Action - Wicks" c c'.
Proof. unfold lower_wick_analysis, adds. intros H. run_block; adds_done. Qed.

(** ** What a block reads *)

Ltac mem := by set_solver.

Ltac agree_tac :=
  intros r1 r2 c Hag; unfold getitem;
  repeat match goal with
  | |- context [r1 !! ?k] => rewrite (Hag k) by mem
  end; reflexivity.

Ltac total_tac :=
  intros r c Hf;
  repeat match goal with
  | |- context [r.[?k]] =>
      let v := fresh "v" in let E := fresh "E" in
      destruct (Hf k ltac:(mem)) as [v E]; rewrite !(getitem_Some _ _ _ E); clear E
  end;
  run_block; eauto.

Ltac error_tac :=
  intros r c e H; unfold missing_field; run_block;
  eexists; (split; [|split; [reflexivity|eassumption]]); mem.

Ltac reads_tac := split; [agree_tac | total_tac | error_tac].

Lemma rsi_analysis_reads : block_reads ["RSI_14"] rsi_analysis.
Proof. unfold rsi_analysis. reads_tac. Qed.

Lemma stochastic_analysis_reads :
  block_reads ["Stoch_K"; "Stoch_D"] stochastic_analysis.
Proof. unfold stochastic_analysis. reads_tac. Qed.

Lemma williams_r_analysis_reads : block_reads ["Williams_R"] williams_r_analysis.
Proof. unfold williams_r_analysis. reads_tac. Qed.

Lemma ema_alignment_analysis_reads :
  block_reads ["EMA_9"; "EMA_21"; "EMA_50"] ema_alignment_analysis.
Proof. unfold ema_alignment_analysis. reads_tac. Qed.

Lemma price_vs_emas_reads : block_reads ["Close"; "EMA_21"] price_vs_emas.
Proof. unfold price_vs_emas. reads_tac. Qed.

Lemma macd_analysis_reads :
  block_reads ["MACD"; "MACD_Signal"; "MACD_Histogram"] macd_analysis.
Proof. unfold macd_analysis. reads_tac. Qed.

Lemma adx_trend_strength_reads :
  block_reads ["ADX"; "DI_Plus"; "DI_Minus"] adx_trend_strength.
Proof. unfold adx_trend_strength. reads_tac. Qed.

Lemma bollinger_bands_analysis_reads :
  block_reads ["BB_Position"] bollinger_bands_analysis.
Proof. unfold bollinger_bands_analysis. reads_tac. Qed.

Lemma bollinger_band_width_reads : block_reads ["BB_Width"] bollinger_band_width.
Proof. unfold bollinger_band_width. reads_tac. Qed.

Lemma atr_analysis_reads : block_reads ["ATR_Percent"] atr_analysis.
Proof. unfold atr_analysis. reads_tac. Qed.

Lemma volume_analysis_reads : block_reads ["Volume_Ratio"] volume_analysis.
Proof. unfold volume_analysis. reads_tac. Qed.

Lemma chaikin_money_flow_reads : block_reads ["CMF"] chaikin_money_flow.
Proof. unfold chaikin_money_flow. reads_tac. Qed.

Lemma candle_analysis_reads :
  block_reads ["Body_Size"; "Close"; "Open"] candle_analysis.
Proof. unfold candle_analysis. reads_tac. Qed.

Lemma upper_wick_analysis_reads :
  block_reads ["Upper_Wick"; "Body_Size"; "Close"; "Open"] upper_wick_analysis.
Proof. unfold upper_wick_analysis. reads_tac. Qed.

Lemma lower_wick_analysis_reads :
  block_reads ["Lower_Wick"; "Body_Size"; "Close"; "Open"] lower_wick_analysis.
Proof. unfold lower_wick_analysis. reads_tac. Qed.

Lemma block_reads_ret : block_reads [] (λ _ c, mret c).
Proof. split; [done|eauto|done]. Qed.

(** Blocks run one after the other read the columns of both. *)
Lemma block_reads_seq (F1 F2 : list string) f1 f2 :
  block_reads F1 f1 → block_reads F2 f2 →
  block_reads (F1 ++ F2) (λ r c, c1 ← f1 r c; f2 r c1).
Proof.
  intros [A1 T1 E1] [A2 T2 E2]. split.
  - intros r1 r2 c Hag.
    rewrite (A1 r1 r2 c) by (intros k Hk; apply Hag; set_solver).
    destruct (f1 r2 c) as [c1|e]; simpl; [|reflexivity].
    apply A2. intros k Hk; apply Hag; set_solver.
  - intros r c Hf.
    destruct (T1 r c) as [c1 ->]; [intros k Hk; apply Hf; set_solver|]. simpl.
    apply T2. intros k Hk; apply Hf; set_solver.
  - intros r c e H. destruct (f1 r c) as [c1|e1] eqn:H1; simpl in H.
    + destruct (E2 _ _ _ H) as (k & Hk & ? & ?). exists k. split; [set_solver|done].
    + injection H as ->. destruct (E1 _ _ _ H1) as (k & Hk & ? & ?).
      exists k. split; [set_solver|done].
Qed.

Lemma analyze_momentum_confluence_reads self :
  block_reads momentum_fields (λ row _, analyze_momentum_confluence self row).
Proof.
  pose proof (block_reads_seq _ _ _ _ rsi_analysis_reads
    (block_reads_seq _ _ _ _ stochastic_analysis_reads
      (block_reads_seq _ _ _ _ williams_r_analysis_reads block_reads_ret))) as [A T E].
  split; intros; unfold analyze_momentum_confluence; cbv zeta; eauto.
Qed.

Lemma analyze_trend_confluence_reads self :
  block_reads trend_fields (λ row _, analyze_trend_confluence self row).
Proof.
  pose proof (block_reads_seq _ _ _ _ ema_alignment_analysis_reads
    (block_reads_seq _ _ _ _ price_vs_emas_reads
      (block_reads_seq _ _ _ _ macd_analysis_reads
        (block_reads_seq _ _ _ _ adx_trend_strength_reads block_reads_ret))))
    as [A T E].
  split; intros; unfold analyze_trend_confluence; cbv zeta; eauto.
Qed.

Lemma analyze_volatility_confluence_reads self :
  block_reads volatility_fields (λ row _, analyze_volatility_confluence self row).
Proof.
  pose proof (block_reads_seq _ _ _ _ bollinger_bands_analysis_reads
    (block_reads_seq _ _ _ _ bollinger_band_width_reads
      (block_reads_seq _ _ _ _ atr_analysis_reads block_reads_ret))) as [A T E].
  split; intros; unfold analyze_volatility_confluence; cbv zeta; eauto.
Qed.

Lemma analyze_volume_confluence_reads self :
  block_reads volume_fields (λ row _, analyze_volume_confluence self row).
Proof.
  pose proof (block_reads_seq _ _ _ _ volume_analysis_reads
    (block_reads_seq _ _ _ _ chaikin_money_flow_reads block_reads_ret)) as [A T E].
  split; intros; unfold analyze_volume_confluence; cbv zeta; eauto.
Qed.

Lemma analyze_price_action_reads self :
  block_reads price_action_fields (λ row _, analyze_price_action self row).
Proof.
  pose proof (block_reads_seq _ _ _ _ candle_analysis_reads
    (block_reads_seq _ _ _ _ upper_wick_analysis_reads
      (block_reads_seq _ _ _ _ lower_wick_analysis_reads block_reads_ret))) as [A T E].
  split; intros; unfold analyze_price_action; cbv zeta; eauto.
Qed.

(** ** The combined analysis *)

Lemma iloc_last_Some (df : list Series) (row : Series) :
  last df = Some row → iloc_last df = Ok row.
Proof. unfold iloc_last. now intros ->. Qed.

Lemma generate_comprehensive_analysis_Ok self df cs row :
  generate_comprehensive_analysis self df = Ok (cs, row) ↔
  last df = Some row
  ∧ ∃ m t vl vo p,
      analyze_momentum_confluence self row = Ok m
      ∧ analyze_trend_confluence self row = Ok t
      ∧ analyze_volatility_confluence self row = Ok vl
      ∧ analyze_volume_confluence self row = Ok vo
      ∧ analyze_price_action self row = Ok p
      ∧ cs = all_confluences_of m t vl vo p.
Proof.
  unfold generate_comprehensive_analysis, iloc_last. split.
  - destruct (last df) as [r|]; [|discriminate]. simpl.
    intros (m & Hm & (t & Ht & (vl & Hvl & (vo & Hvo & (p & Hp & H)%bind_Ok
      )%bind_Ok)%bind_Ok)%bind_Ok)%bind_Ok.
    cbv zeta in H. injection H as <- ->. split; [done|].
    exists m, t, vl, vo, p. done.
  - intros (Hl & m & t & vl & vo & p & Hm & Ht & Hvl & Hvo & Hp & ->).
    rewrite Hl, bind_ret_l, Hm, bind_ret_l, Ht, bind_ret_l, Hvl, bind_ret_l,
      Hvo, bind_ret_l, Hp, bind_ret_l.
    reflexivity.
Qed.

Lemma evaluators_agree self self' row row' :
  agree_on required_fields row row' →
  analyze_momentum_confluence self row = analyze_momentum_confluence self' row'
  ∧ analyze_trend_confluence self row = analyze_trend_confluence self' row'
  ∧ analyze_volatility_confluence self row = analyze_volatility_confluence self' row'
  ∧ analyze_volume_confluence self row = analyze_volume_confluence self' row'
  ∧ analyze_price_action self row = analyze_price_action self' row'.
Proof.
  intros Hag. repeat apply conj.
  - apply (reads_agree _ _ (analyze_momentum_confluence_reads self) row row' no_confluences).
    intros k Hk. apply Hag. unfold required_fields. rewrite !elem_of_app. tauto.
  - apply (reads_agree _ _ (analyze_trend_confluence_reads self) row row' no_confluences).
    intros k Hk. apply Hag. unfold required_fields. rewrite !elem_of_app. tauto.
  - apply (reads_agree _ _ (analyze_volatility_confluence_reads self) row row' no_confluences).
    intros k Hk. apply Hag. unfold required_fields. rewrite !elem_of_app. tauto.
  - apply (reads_agree _ _ (analyze_volume_confluence_reads self) row row' no_confluences).
    intros k Hk. apply Hag. unfold required_fields. rewrite !elem_of_app. tauto.
  - apply (reads_agree _ _ (analyze_price_action_reads self) row row' no_confluences).
    intros k Hk. apply Hag. unfold required_fields. rewrite !elem_of_app. tauto.
Qed.

(** C7: the combined confluence set is the per-direction concatenation
    of the outputs of the five evaluators in the order momentum, trend,
    volatility, volume, price action; and it is a function of the
    columns the evaluators read: two rows that agree on them give the
    same signals in the same order (in particular the same row twice). *)
Theorem C7_deterministic_concatenation (self : TradingAnalyzer) (df : list Series)
    (row : Series) :
  last df = Some row →
  (∀ cs row', generate_comprehensive_analysis self df = Ok (cs, row') ↔
     row' = row
     ∧ ∃ m t vl vo p,
         analyze_momentum_confluence self row = Ok m
         ∧ analyze_trend_confluence self row = Ok t
         ∧ analyze_volatility_confluence self row = Ok vl
         ∧ analyze_volume_confluence self row = Ok vo
         ∧ analyze_price_action self row = Ok p
         ∧ cs_bullish cs = cs_bullish m ++ cs_bullish t ++ cs_bullish vl
                           ++ cs_bullish vo ++ cs_bullish p
         ∧ cs_bearish cs = cs_bearish m ++ cs_bearish t ++ cs_bearish vl
                           ++ cs_bearish vo ++ cs_bearish p
         ∧ cs_neutral cs = cs_neutral m ++ cs_neutral t ++ cs_neutral vl
                           ++ cs_neutral vo ++ cs_neutral p)
  ∧ (∀ self' df' row', last df' = Some row' → agree_on required_fields row row' →
       fst <$> generate_comprehensive_analysis self df
       = fst <$> generate_comprehensive_analysis self' df').
Proof.
  intros Hlast. split.
  - intros cs row'. rewrite generate_comprehensive_analysis_Ok. split.
    + intros (Hl & m & t & vl & vo & p & Hm & Ht & Hvl & Hvo & Hp & ->).
      assert (row' = row) as -> by congruence. split; [done|].
      exists m, t, vl, vo, p. done.
    + intros (-> & m & t & vl & vo & p & Hm & Ht & Hvl & Hvo & Hp & Hb & Hbe & Hn).
      split; [done|]. exists m, t, vl, vo, p. do 5 (split; [done|]).
      destruct cs; simpl in *; subst; reflexivity.
  - intros self' df' row' Hlast' Hag.
    destruct (evaluators_agree self self' row row' Hag) as (Hm & Ht & Hvl & Hvo & Hp).
    unfold generate_comprehensive_analysis.
    rewrite (iloc_last_Some _ _ Hlast), (iloc_last_Some _ _ Hlast'), !bind_ret_l.
    rewrite Hm, Ht, Hvl, Hvo, Hp.
    destruct (analyze_momentum_confluence self' row'); [|done].
    destruct (analyze_trend_confluence self' row'); [|done].
    destruct (analyze_volatility_confluence self' row'); [|done].
    destruct (analyze_volume_confluence self' row'); [|done].
    destruct (analyze_price_action self' row'); done.
Qed.

Lemma missing_field_mono (F F' : list string) (r : Series) (e : exn) :
  (∀ k, k ∈ F → k ∈ F') → missing_field F r e → missing_field F' r e.
Proof. intros Hsub (k & Hk & ? & ?). exists k. auto. Qed.

Lemma has_fields_mono (F F' : list string) (r : Series) :
  (∀ k, k ∈ F → k ∈ F') → has_fields F' r → has_fields F r.
Proof. intros Hsub H k Hk. auto. Qed.

Ltac required_sub :=
  let k := fresh "k" in
  intros k; unfold required_fields; rewrite !elem_of_app; tauto.

(** C2 (as the code behaves): there is no validation step. On the last
    row of the frame the five evaluators simply run in order. When every
    column they read is present the analysis returns, whatever the
    values are; it fails only with the [KeyError] of an absent column,
    raised by the first evaluator whose lookup reaches it, after the
    evaluators before it have returned. *)
Theorem C2_errors_come_from_lookups (self : TradingAnalyzer) (df : list Series)
    (row : Series) :
  last df = Some row →
  (has_fields required_fields row →
   ∃ cs, generate_comprehensive_analysis self df = Ok (cs, row))
  ∧ (∀ e, generate_comprehensive_analysis self df = Raise e →
       missing_field required_fields row e
       ∧ (analyze_momentum_confluence self row = Raise e
          ∨ (∃ m, analyze_momentum_confluence self row = Ok m)
            ∧ (analyze_trend_confluence self row = Raise e
               ∨ (∃ t, analyze_trend_confluence self row = Ok t)
                 ∧ (analyze_volatility_confluence self row = Raise e
                    ∨ (∃ vl, analyze_volatility_confluence self row = Ok vl)
                      ∧ (analyze_volume_confluence self row = Raise e
                         ∨ (∃ vo, analyze_volume_confluence self row = Ok vo)
                           ∧ analyze_price_action self row = Raise e))))).
Proof.
  intros Hlast. split.
  - intros Hf.
    destruct (reads_total _ _ (analyze_momentum_confluence_reads self) row no_confluences)
      as [m Hm]; [eapply has_fields_mono; [|exact Hf]; required_sub|].
    destruct (reads_total _ _ (analyze_trend_confluence_reads self) row no_confluences)
      as [t Ht]; [eapply has_fields_mono; [|exact Hf]; required_sub|].
    destruct (reads_total _ _ (analyze_volatility_confluence_reads self) row no_confluences)
      as [vl Hvl]; [eapply has_fields_mono; [|exact Hf]; required_sub|].
    destruct (reads_total _ _ (analyze_volume_confluence_reads self) row no_confluences)
      as [vo Hvo]; [eapply has_fields_mono; [|exact Hf]; required_sub|].
    destruct (reads_total _ _ (analyze_price_action_reads self) row no_confluences)
      as [p Hp]; [eapply has_fields_mono; [|exact Hf]; required_sub|].
    exists (all_confluences_of m t vl vo p).
    apply generate_comprehensive_analysis_Ok. split; [done|].
    exists m, t, vl, vo, p. done.
  - intros e. unfold generate_comprehensive_analysis.
    rewrite (iloc_last_Some _ _ Hlast), bind_ret_l.
    destruct (analyze_momentum_confluence self row) as [m|e1] eqn:Hm.
    2:{ intros [= ->]. split; [|by left].
        eapply missing_field_mono;
          [|exact (reads_error _ _ (analyze_momentum_confluence_reads self) _ no_confluences _ Hm)].
        required_sub. }
    rewrite bind_ret_l.
    destruct (analyze_trend_confluence self row) as [t|e1] eqn:Ht.
    2:{ intros [= ->]. split; [|right; split; [eauto|by left]].
        eapply missing_field_mono;
          [|exact (reads_error _ _ (analyze_trend_confluence_reads self) _ no_confluences _ Ht)].
        required_sub. }
    rewrite bind_ret_l.
    destruct (analyze_volatility_confluence self row) as [vl|e1] eqn:Hvl.
    2:{ intros [= ->].
        split; [|right; split; [eauto|right; split; [eauto|by left]]].
        eapply missing_field_mono;
          [|exact (reads_error _ _ (analyze_volatility_confluence_reads self) _ no_confluences _ Hvl)].
        required_sub. }
    rewrite bind_ret_l.
    destruct (analyze_volume_confluence self row) as [vo|e1] eqn:Hvo.
    2:{ intros [= ->].
        split; [|right; split; [eauto|right; split; [eauto|right; split; [eauto|by left]]]].
        eapply missing_field_mono;
          [|exact (reads_error _ _ (analyze_volume_confluence_reads self) _ no_confluences _ Hvo)].
        required_sub. }
    rewrite bind_ret_l.
    destruct (analyze_price_action self row) as [p|e1] eqn:Hp; [discriminate|].
    intros [= ->].
    split; [|right; split; [eauto|right; split; [eauto|right; split;
              [eauto|right; split; [eauto|done]]]]].
    eapply missing_field_mono;
      [|exact (reads_error _ _ (analyze_price_action_reads self) _ no_confluences _ Hp)].
    required_sub.
Qed.

(** Evaluates the tests on literals. *)
Ltac eval_tests :=
  repeat match goal with
  | |- context [flt ?a ?b] =>
      let v := eval vm_compute in (flt a b) in
      lazymatch v with
      | true => change (flt a b) with true
      | false => change (flt a b) with false
      end
  | |- context [fgt ?a ?b] =>
      let v := eval vm_compute in (fgt a b) in
      lazymatch v with
      | true => change (fgt a b) with true
      | false => change (fgt a b) with false
      end
  | |- context [fle ?a ?b] =>
      let v := eval vm_compute in (fle a b) in
      lazymatch v with
      | true => change (fle a b) with true
      | false => change (fle a b) with false
      end
  end.

(** C8: the end-to-end scenario. With RSI 25, %K 15 and %D 12,
    Williams %R -85, EMA9 > EMA21 > EMA50, Close > EMA21, MACD above its
    signal with a positive histogram, ADX 30 with DI+ > DI-, Bollinger
    position 0.05, CMF 0.25, a bullish candle of body 2.5 %, and the
    other columns such that no other rule fires, the analysis has at
    least six Strong or Medium bullish signals, a bullish score of at
    least 18, a bearish score of 0, and the bias ("Bullish Bias", 100.0). *)
Theorem C8_bullish_scenario (self : TradingAnalyzer) (df : list Series) (row : Series)
    (e9 e21 e50 close open macd sig hist dp dm w atr vr uw lw : float) :
  last df = Some row →
  confluence_threshold self = 3 →
  row !! "RSI_14" = Some 25%float →
  row !! "Stoch_K" = Some 15%float → row !! "Stoch_D" = Some 12%float →
  row !! "Williams_R" = Some (-85)%float →
  row !! "EMA_9" = Some e9 → row !! "EMA_21" = Some e21 → row !! "EMA_50" = Some e50 →
  fgt e9 e21 = true → fgt e21 e50 = true →
  row !! "Close" = Some close → fgt close e21 = true →
  row !! "MACD" = Some macd → row !! "MACD_Signal" = Some sig →
  row !! "MACD_Histogram" = Some hist → fgt macd sig = true → fgt hist 0 = true →
  row !! "ADX" = Some 30%float →
  row !! "DI_Plus" = Some dp → row !! "DI_Minus" = Some dm → fgt dp dm = true →
  row !! "BB_Position" = Some 0.05%float →
  row !! "CMF" = Some 0.25%float →
  row !! "Body_Size" = Some 2.5%float →
  row !! "Open" = Some open → fgt close open = true →
  row !! "BB_Width" = Some w → flt w 2 = false → fgt w 8 = false →
  row !! "ATR_Percent" = Some atr → fgt atr 3 = false →
  row !! "Volume_Ratio" = Some vr → fgt vr 1.5 = false → flt vr 0.7 = false →
  row !! "Upper_Wick" = Some uw → fgt uw (2.5 * 2) = false →
  row !! "Lower_Wick" = Some lw →
  ∃ cs, generate_comprehensive_analysis self df = Ok (cs, row)
        ∧ (6 ≤ length (filter (λ s, strong_or_medium s = true) (cs_bullish cs)))%nat
        ∧ 18 ≤ bullish_score cs
        ∧ bearish_score cs = 0
        ∧ calculate_confluence_strength self cs = ("Bullish Bias", PyFloat 100).
Proof.
  intros Hlast Hth HRSI HK HD HW H9 H21 H50 T1 T2 HC T3 HM HS HH T4 T5 HA HP HMi T6
    HBB HCMF HB HO T7 HWd T8 T9 HATR T10 HVR T11 T12 HUW T13 HLW.
  pose proof (fgt_not_flt _ _ T7) as T14.
  unfold generate_comprehensive_analysis.
  rewrite (iloc_last_Some _ _ Hlast), bind_ret_l.
  unfold analyze_momentum_confluence, analyze_trend_confluence,
    analyze_volatility_confluence, analyze_volume_confluence, analyze_price_action,
    rsi_analysis, stochastic_analysis, williams_r_analysis, ema_alignment_analysis,
    price_vs_emas, macd_analysis, adx_trend_strength, bollinger_bands_analysis,
    bollinger_band_width, atr_analysis, volume_analysis, chaikin_money_flow,
    candle_analysis, upper_wick_analysis, lower_wick_analysis.
  cbv zeta.
  rewrite !(getitem_Some _ _ _ HRSI), !(getitem_Some _ _ _ HK), !(getitem_Some _ _ _ HD),
    !(getitem_Some _ _ _ HW), !(getitem_Some _ _ _ H9), !(getitem_Some _ _ _ H21),
    !(getitem_Some _ _ _ H50), !(getitem_Some _ _ _ HC), !(getitem_Some _ _ _ HM),
    !(getitem_Some _ _ _ HS), !(getitem_Some _ _ _ HH), !(getitem_Some _ _ _ HA),
    !(getitem_Some _ _ _ HP), !(getitem_Some _ _ _ HMi), !(getitem_Some _ _ _ HBB),
    !(getitem_Some _ _ _ HCMF), !(getitem_Some _ _ _ HB), !(getitem_Some _ _ _ HO),
    !(getitem_Some _ _ _ HWd), !(getitem_Some _ _ _ HATR), !(getitem_Some _ _ _ HVR),
    !(getitem_Some _ _ _ HUW), !(getitem_Some _ _ _ HLW).
  cbn [mbind result_bind mret result_ret py_and].
  rewrite ?T1, ?T2, ?T3, ?T4, ?T5, ?T6, ?T7, ?T8, ?T9, ?T10, ?T11, ?T12, ?T13, ?T14.
  eval_tests.
  cbn [mbind result_bind mret result_ret py_and andb String.eqb Ascii.eqb Bool.eqb].
  destruct (fgt lw (2.5 * 2)); cbn [mbind result_bind mret result_ret py_and];
    (eexists; split; [reflexivity|]);
    rewrite calculate_confluence_strength_eq, Hth;
    (split; [vm_compute; lia|]); (split; [vm_compute; discriminate|]);
    split; vm_compute; reflexivity.
Qed.

Lemma float_100_not_50 : PyFloat 100 ≠ PyFloat 50.
Proof.
  intros H.
  apply (f_equal (λ x, match x with
                       | PyFloat f => PrimFloat.eqb f 50
                       | PyInt _ => false
                       end)) in H.
  vm_compute in H. discriminate.
Qed.

(** C3 fails as stated: on a row where only the price-versus-EMA rule
    fires the scores are bullish 2, bearish 0, the threshold is 3, and
    the result is "Mixed/Neutral" with confidence 100.0, not 50. *)
Lemma C3_counterexample :
  confluence_threshold init = 3
  ∧ (λ x, (bullish_score x.1, bearish_score x.1, neutral_score x.1,
           calculate_confluence_strength init x.1))
      <$> generate_comprehensive_analysis init [quiet_row]
    = Ok (2, 0, 0, ("Mixed/Neutral", PyFloat 100))
  ∧ PyFloat 100 ≠ PyFloat 50.
Proof.
  split; [reflexivity|]. split; [vm_compute; reflexivity|]. apply float_100_not_50.
Qed.

(** C3 (as the code behaves): with threshold 3, bullish score 2 and
    bearish score 0 the label is "Mixed/Neutral" and the confidence is
    2 / (2 + neutral score) * 100: 50.0 when the neutral score is 2,
    100.0 when there is no neutral signal. *)
Theorem C3_threshold_gate (self : TradingAnalyzer) (c : confluence_set) :
  confluence_threshold self = 3 →
  bullish_score c = 2 →
  bearish_score c = 0 →
  calculate_confluence_strength self c
    = ("Mixed/Neutral", PyFloat (percent_of 2 (2 + neutral_score c)))
  ∧ (neutral_score c = 2 →
     calculate_confluence_strength self c = ("Mixed/Neutral", PyFloat 50))
  ∧ (neutral_score c = 0 →
     calculate_confluence_strength self c = ("Mixed/Neutral", PyFloat 100)).
Proof.
  intros Hth Hb Hbe.
  assert (calculate_confluence_strength self c
          = ("Mixed/Neutral", PyFloat (percent_of 2 (2 + neutral_score c)))) as H.
  { rewrite calculate_confluence_strength_eq. unfold total_score.
    rewrite Hth, Hb, Hbe. pose proof (neutral_score_nonneg c).
    z_tests; try lia. reflexivity. }
  split; [exact H|]. split; intros Hn; rewrite H, Hn; reflexivity.
Qed.

(** C2 fails as stated. A row whose RSI is NaN is analysed without any
    error and simply has no RSI signal; a row without its CMF column
    is handed to the momentum, trend and volatility evaluators, which
    return, before the volume evaluator raises [KeyError]; a row
    without its %D column is analysed without any error. *)
Lemma C2_counterexample :
  (spec_valid_snapshot nan_rsi_row = false
   ∧ (λ x, (length (from_indicator "RSI (14)"
                      (cs_bullish x.1 ++ cs_bearish x.1 ++ cs_neutral x.1)),
            calculate_confluence_strength init x.1))
       <$> generate_comprehensive_analysis init [nan_rsi_row]
     = Ok (0%nat, ("Mixed/Neutral", PyFloat 100)))
  ∧ (spec_valid_snapshot no_cmf_row = false
     ∧ (λ _, ()) <$> analyze_momentum_confluence init no_cmf_row = Ok ()
     ∧ (λ _, ()) <$> analyze_trend_confluence init no_cmf_row = Ok ()
     ∧ (λ _, ()) <$> analyze_volatility_confluence init no_cmf_row = Ok ()
     ∧ generate_comprehensive_analysis init [no_cmf_row] = Raise (KeyError "CMF"))
  ∧ (spec_valid_snapshot no_stoch_d_row = false
     ∧ (λ x, calculate_confluence_strength init x.1)
         <$> generate_comprehensive_analysis init [no_stoch_d_row]
       = Ok ("Mixed/Neutral", PyFloat 100)).
Proof. repeat split; vm_compute; reflexivity. Qed.

(** C9 fails as stated: the threshold is not a parameter of anything.
    The constructor rejects a threshold, positional or by keyword, and
    so does the aggregation; the analyzer the constructor builds has
    the threshold 3, and on one Medium bullish signal it answers
    "Mixed/Neutral" where a threshold of 2 would answer "Bullish Bias". *)
Lemma C9_counterexample :
  new_TradingAnalyzer [PyInt 2] [] = TypeError
  ∧ new_TradingAnalyzer [] [("confluence_threshold", PyInt 2)] = TypeError
  ∧ call_calculate_confluence_strength init
      (Confluences [sample_signal "Medium"] [] []) [PyInt 2] [] = TypeError
  ∧ call_calculate_confluence_strength init
      (Confluences [sample_signal "Medium"] [] [])
      [] [("confluence_threshold", PyInt 2)] = TypeError
  ∧ (∃ a, new_TradingAnalyzer [] [] = Returns a
          ∧ confluence_threshold a = 3
          ∧ call_calculate_confluence_strength a
              (Confluences [sample_signal "Medium"] [] []) [] []
            = Returns ("Mixed/Neutral", PyFloat 100))
  ∧ calculate_confluence_strength {| confluence_threshold := 2 |}
      (Confluences [sample_signal "Medium"] [] [])
    = ("Bullish Bias", PyFloat 100).
Proof.
  do 4 (split; [reflexivity|]). split; [|vm_compute; reflexivity].
  exists init. split; [reflexivity|]. split; [reflexivity|].
  vm_compute. reflexivity.
Qed.

(** C9 (as the code behaves): the threshold is an attribute of the
    analyzer. The constructor takes no argument and sets it to 3; the
    aggregation takes the analyzer and the confluence set only, and
    reads the threshold from the analyzer: analyzers with the same
    threshold give the same result, and thresholds 3 and 2 differ on
    some set. Nothing else is read from the analyzer: the combined
    analysis is the same for every analyzer. *)
Theorem C9_threshold_attribute :
  (∀ args kwargs a, new_TradingAnalyzer args kwargs = Returns a →
     args = [] ∧ kwargs = [] ∧ confluence_threshold a = 3)
  ∧ (∀ self c args kwargs r,
       call_calculate_confluence_strength self c args kwargs = Returns r →
       args = [] ∧ kwargs = [] ∧ r = calculate_confluence_strength self c)
  ∧ (∀ self self' c, confluence_threshold self = confluence_threshold self' →
       calculate_confluence_strength self c = calculate_confluence_strength self' c)
  ∧ (∃ c, calculate_confluence_strength {| confluence_threshold := 3 |} c
          ≠ calculate_confluence_strength {| confluence_threshold := 2 |} c)
  ∧ (∀ self self' df,
       generate_comprehensive_analysis self df = generate_comprehensive_analysis self' df).
Proof.
  split.
  { intros [|x args] [|k kwargs] a H; try discriminate.
    injection H as <-. done. }
  split.
  { intros self c [|x args] [|k kwargs] r H; try discriminate.
    injection H as <-. done. }
  split.
  { intros self self' c H. rewrite !calculate_confluence_strength_eq, H. reflexivity. }
  split; [|reflexivity].
  exists (Confluences [sample_signal "Medium"] [] []).
  vm_compute. discriminate.
Qed.

(** ** The theorems at concrete inputs *)

Lemma C2_errors_come_from_lookups_witness :
  (has_fields required_fields quiet_row →
   ∃ cs, generate_comprehensive_analysis init [quiet_row] = Ok (cs, quiet_row))
  ∧ (∀ e, generate_comprehensive_analysis init [no_cmf_row] = Raise e →
          missing_field required_fields no_cmf_row e).
Proof.
  split.
  - apply (C2_errors_come_from_lookups init [quiet_row] quiet_row). reflexivity.
  - intros e He.
    apply (C2_errors_come_from_lookups init [no_cmf_row] no_cmf_row); [reflexivity|exact He].
Defined.

Lemma C3_threshold_gate_witness :
  calculate_confluence_strength init
    (Confluences [sample_signal "Medium"] [] [sample_signal "Medium"])
  = ("Mixed/Neutral", PyFloat 50).
Proof.
  apply (C3_threshold_gate init
           (Confluences [sample_signal "Medium"] [] [sample_signal "Medium"]));
    reflexivity.
Defined.

Lemma C4_tie_is_mixed_witness :
  calculate_confluence_strength {| confluence_threshold := 1 |}
    (Confluences [sample_signal "Strong"; sample_signal "Medium"]
                 [sample_signal "Medium"; sample_signal "Strong"] [])
  = ("Mixed/Neutral", PyFloat 50).
Proof.
  apply (C4_tie_is_mixed {| confluence_threshold := 1 |}
           (Confluences [sample_signal "Strong"; sample_signal "Medium"]
                        [sample_signal "Medium"; sample_signal "Strong"] []));
    reflexivity.
Defined.

Lemma C5_rsi_rules_witness :
  ∃ c s, analyze_momentum_confluence init scenario_row = Ok c
         ∧ from_indicator "RSI (14)" (cs_bullish c) = [s]
         ∧ strength s = "Medium"
         ∧ from_indicator "RSI (14)" (cs_bearish c) = []
         ∧ from_indicator "RSI (14)" (cs_neutral c) = [].
Proof.
  let r := eval vm_compute in (analyze_momentum_confluence init scenario_row) in
  lazymatch r with
  | Ok ?c =>
      assert (analyze_momentum_confluence init scenario_row = Ok c) as Hc
        by (vm_compute; reflexivity);
      assert (scenario_row !! "RSI_14" = Some 25%float) as Hv
        by (vm_compute; reflexivity);
      destruct (C5_rsi_rules init scenario_row c 25%float Hc Hv) as (Hlt & _);
      destruct (Hlt eq_refl) as ((s & Hs & Hm) & Hbe & Hn);
      exists c, s; split; [exact Hc|]; split; [exact Hs|]; split; [exact Hm|];
      split; [exact Hbe|exact Hn]
  end.
Defined.

Lemma C6_adx_dead_zone_witness :
  ∃ c, analyze_trend_confluence init quiet_row = Ok c
       ∧ ∀ d, from_indicator "ADX Trend Strength" (cs_get d c) = [].
Proof.
  let r := eval vm_compute in (analyze_trend_confluence init quiet_row) in
  lazymatch r with
  | Ok ?c =>
      assert (analyze_trend_confluence init quiet_row = Ok c) as Hc
        by (vm_compute; reflexivity);
      assert (quiet_row !! "ADX" = Some 22%float) as Hv
        by (vm_compute; reflexivity);
      destruct (C6_adx_dead_zone init quiet_row c 22%float Hc Hv) as (Hdead & _);
      exists c; split; [exact Hc|]; exact (Hdead eq_refl eq_refl)
  end.
Defined.

Lemma C7_deterministic_concatenation_witness :
  fst <$> generate_comprehensive_analysis init [quiet_row]
  = fst <$> generate_comprehensive_analysis init
              [scenario_row; <["RSI_21" := 55%float]> quiet_row].
Proof.
  apply (proj2 (C7_deterministic_concatenation init [quiet_row] quiet_row eq_refl)
           init [scenario_row; <["RSI_21" := 55%float]> quiet_row]
           (<["RSI_21" := 55%float]> quiet_row)).
  - reflexivity.
  - assert ("RSI_21" ∉ required_fields) as Hnot
      by (apply (bool_decide_eq_false_1 ("RSI_21" ∈ required_fields));
          vm_compute; reflexivity).
    intros k Hk. rewrite lookup_insert_ne; [reflexivity|].
    intros <-. exact (Hnot Hk).
Defined.

Lemma C8_bullish_scenario_witness :
  ∃ cs, generate_comprehensive_analysis init [quiet_row; scenario_row]
        = Ok (cs, scenario_row)
        ∧ (6 ≤ length (filter (λ s, strong_or_medium s = true) (cs_bullish cs)))%nat
        ∧ 18 ≤ bullish_score cs
        ∧ bearish_score cs = 0
        ∧ calculate_confluence_strength init cs = ("Bullish Bias", PyFloat 100).
Proof.
  apply (C8_bullish_scenario init [quiet_row; scenario_row] scenario_row
           103 102 101 104 101.5 1 0.5 0.5 25 15 5 1 1 0.5 0.5);
    vm_compute; reflexivity.
Defined.

(** * Further properties of the engine *)




































(** ** The price-versus-EMA rule always fires *)










(** ** The stochastic rule *)




(** ** Price action: candle and wicks *)


(** ** Columns that are read only on demand *)





(** ** Which row is analysed *)



(** ** More on the aggregator *)








(** ** The trading plan *)




(** ** The further properties at concrete inputs *)
















(** ** The report *)












